(** * Processrunner test fixtures: [encode_base64.py] and [test_sleep.py]

    A shallow embedding of the two helper scripts under
    [processutils.tests/] together with the parts of the Python runtime
    they call ([print], [sys.exit], [open]/[read], [int], [time.sleep],
    [base64.b64encode]), followed by the properties of the scripts.

    Layout: definitions first (runtime, codec, scripts), then the facts
    about the codec, then the facts about each script. *)

From Stdlib Require Import ZArith List Bool Lia.
From Stdlib Require DecimalString DecimalN DecimalPos DecimalFacts.
From Stdlib.Strings Require Import String Ascii Byte.
Import ListNotations.
Local Open Scope string_scope.
Local Open Scope list_scope.
Local Open Scope Z_scope.

(** ** The Python runtime the scripts run on *)

Module Py.

(** Exceptions the two scripts can meet.  [SystemExit] carries the
    status handed to [sys.exit]. *)
Inductive exn : Type :=
| SystemExit (code : Z)
| IndexError
| FileNotFoundError
| PermissionError
| IsADirectoryError
| UnicodeDecodeError
| ValueError
| OverflowError
| binascii_Error.

(** What a run does to the outside world, in the order it happens:
    files it tries to open, time it spends asleep, text handed to
    standard output. *)
Inductive event : Type :=
| Open (path : string)
| Sleep (seconds : Z)
| Write (text : string).

(** A computation threads the log of events and either raises or
    returns. *)
Definition M (A : Type) : Type := list event -> (exn + A) * list event.

Definition ret {A} (a : A) : M A := fun log => (inr a, log).

Definition bind {A B} (m : M A) (k : A -> M B) : M B :=
  fun log =>
    match m log with
    | (inl e, log') => (inl e, log')
    | (inr a, log') => k a log'
    end.

Definition raise {A} (e : exn) : M A := fun log => (inl e, log).

Definition emit (ev : event) : M unit := fun log => (inr tt, log ++ [ev]).

Definition lift {A} (r : exn + A) : M A := fun log => (r, log).

Declare Scope py_scope.
Delimit Scope py_scope with py.
Notation "x <- m ;; k" := (bind m (fun x => k))
  (at level 61, m at next level, right associativity) : py_scope.
Notation "m ;; k" := (bind m (fun _ => k))
  (at level 61, right associativity) : py_scope.

(** The line feed [print] appends by default. *)
Definition LF : string := String (ascii_of_nat 10) EmptyString.

(** [print(s, end=e)]: one write of [s] followed by [e]. *)
Definition print_end (s e : string) : M unit := emit (Write (s ++ e)).

(** [print(s)]: [end] defaults to a line feed. *)
Definition print (s : string) : M unit := print_end s LF.

(** [sys.exit(code)] *)
Definition sys_exit {A} (code : Z) : M A := raise (SystemExit code).

(** [len(xs)] *)
Definition len {A} (xs : list A) : Z := Z.of_nat (List.length xs).

(** [xs[i]] for [i >= 0]; out of range raises [IndexError]. *)
Definition item {A} (xs : list A) (i : nat) : M A :=
  match nth_error xs i with
  | Some x => ret x
  | None => raise IndexError
  end.

(** The file system as [open(path, "rb")] sees it: a path names a
    regular file with its contents, or the attempt to open it fails. *)
Inductive node : Type :=
| Regular (contents : list byte)
| Missing
| Denied
| Directory.

Definition filesystem : Type := string -> node.

(** A binary file object open for reading. *)
Record file : Type := { contents : list byte }.

(** [open(path, "rb")] *)
Definition open_rb (fs : filesystem) (path : string) : M file :=
  (emit (Open path) ;;
   match fs path with
   | Regular data => ret {| contents := data |}
   | Missing => raise FileNotFoundError
   | Denied => raise PermissionError
   | Directory => raise IsADirectoryError
   end)%py.

(** [f.read()] on a freshly opened file: all of it. *)
Definition read (f : file) : M (list byte) := ret (contents f).

Definition is_ascii_byte (b : byte) : bool := (Byte.to_N b <? 128)%N.

(** [bytes.decode("ascii")]: every byte must be below 128. *)
Fixpoint decode_ascii (bs : list byte) : exn + string :=
  match bs with
  | [] => inr EmptyString
  | b :: rest =>
      if is_ascii_byte b then
        match decode_ascii rest with
        | inr s => inr (String (ascii_of_byte b) s)
        | inl e => inl e
        end
      else inl UnicodeDecodeError
  end.

(** [str.encode("ascii")], the way [base64.b64decode] turns a [str]
    argument into bytes; a character above 127 is a [ValueError]
    there. *)
Fixpoint encode_ascii (s : string) : exn + list byte :=
  match s with
  | EmptyString => inr []
  | String c rest =>
      if (N_of_ascii c <? 128)%N then
        match encode_ascii rest with
        | inr bs => inr (byte_of_ascii c :: bs)
        | inl e => inl e
        end
      else inl ValueError
  end.

(** A finished process: its exit status and everything it did. *)
Record process : Type := { exit_code : Z; events : list event }.

(** Running a script body as [__main__]: normal completion exits 0,
    [SystemExit] exits with its code, any other exception reaches the
    top level, where the interpreter prints a traceback on standard
    error and exits 1. *)
Definition run (body : M unit) : process :=
  match body [] with
  | (inr _, log) => {| exit_code := 0; events := log |}
  | (inl (SystemExit code), log) => {| exit_code := code; events := log |}
  | (inl _, log) => {| exit_code := 1; events := log |}
  end.

(** Standard output is the concatenation of the writes. *)
Fixpoint written (log : list event) : string :=
  match log with
  | [] => EmptyString
  | Write s :: rest => (s ++ written rest)%string
  | _ :: rest => written rest
  end.

Definition stdout (p : process) : string := written (events p).

(** Paths the process tried to open, and the sleeps it took. *)
Fixpoint opened (log : list event) : list string :=
  match log with
  | [] => []
  | Open p :: rest => p :: opened rest
  | _ :: rest => opened rest
  end.

Fixpoint slept (log : list event) : list Z :=
  match log with
  | [] => []
  | Sleep n :: rest => n :: slept rest
  | _ :: rest => slept rest
  end.

(** *** [int(str)]

    The argument is first brought to ASCII: a string that is already
    ASCII is taken as it is; otherwise a character below 127 is kept,
    white space becomes a blank, a decimal digit its ASCII digit, and
    the first character that is none of these is replaced by [?] and
    ends the text.  Characters are code points below 256 here, where
    the white space above 126 is U+0085 and U+00A0 and no decimal
    digit lies. *)
Definition is_ascii (s : string) : bool :=
  forallb (fun c => (N_of_ascii c <? 128)%N) (list_ascii_of_string s).

Definition Py_UNICODE_ISSPACE (c : ascii) : bool :=
  let n := N_of_ascii c in
  ((9 <=? n) && (n <=? 13) || (28 <=? n) && (n <=? 32)
   || (n =? 133) || (n =? 160))%N.

Fixpoint transform_loop (s : string) : string :=
  match s with
  | EmptyString => EmptyString
  | String ch rest =>
      if (N_of_ascii ch <? 127)%N then String ch (transform_loop rest)
      else if Py_UNICODE_ISSPACE ch then String " " (transform_loop rest)
      else String "?" EmptyString
  end.

Definition TransformDecimalAndSpaceToASCII (s : string) : string :=
  if is_ascii s then s else transform_loop s.

(** White space of the C locale. *)
Definition Py_ISSPACE (c : ascii) : bool :=
  let n := N_of_ascii c in
  ((9 <=? n) && (n <=? 13) || (n =? 32))%N.

Fixpoint skip_space (s : string) : string :=
  match s with
  | String c rest => if Py_ISSPACE c then skip_space rest else s
  | EmptyString => s
  end.

(** [_PyLong_DigitValue[c] < 10] *)
Definition digit_value (c : ascii) : option Z :=
  let n := N_of_ascii c in
  if ((48 <=? n) && (n <=? 57))%N then Some (Z.of_N n - 48) else None.

(** The scan over digits and underscores: the value read, the number
    of digits, and the text left over; [None] for two underscores in a
    row or an underscore at the end.  [prev_underscore] tells whether
    the character before was an underscore. *)
Fixpoint scan_digits (prev_underscore : bool) (acc : Z) (digits : nat)
    (s : string) : option (Z * nat * string) :=
  match s with
  | String c rest =>
      if Ascii.eqb c "_" then
        if prev_underscore then None
        else scan_digits true acc digits rest
      else
        match digit_value c with
        | Some d => scan_digits false (acc * 10 + d) (S digits) rest
        | None => if prev_underscore then None else Some (acc, digits, s)
        end
  | EmptyString =>
      if prev_underscore then None else Some (acc, digits, s)
  end.

(** [sys.get_int_max_str_digits()], as the interpreter starts. *)
Definition int_max_str_digits : nat := 4300.

(** [*str == c] on a C string: the text starts with [c]. *)
Definition starts_with (c : ascii) (s : string) : bool :=
  match s with
  | String a _ => Ascii.eqb a c
  | EmptyString => false
  end.

(** [++str] *)
Definition advance (s : string) : string :=
  match s with
  | String _ rest => rest
  | EmptyString => s
  end.

(** The characters [int] can make something of: white space, signs,
    digits and the underscore. *)
Definition numeric_char (c : ascii) : bool :=
  Py_ISSPACE c || Py_UNICODE_ISSPACE c
  || Ascii.eqb c "+" || Ascii.eqb c "-" || Ascii.eqb c "_"
  || match digit_value c with Some _ => true | None => false end.

(** [c] occurs in [s]. *)
Fixpoint occurs (c : ascii) (s : string) : Prop :=
  match s with
  | EmptyString => False
  | String a rest => a = c \/ occurs c rest
  end.

(** [PyLong_FromString(str, &end, 10)] with the check that all of the
    text was used: blanks, a sign, digits with single underscores
    between them, blanks. *)
Definition long_from_string (s : string) : option Z :=
  let s := skip_space s in
  let (sign, s) :=
    if starts_with "+" s then (1, advance s)
    else if starts_with "-" s then (-1, advance s)
    else (1, s) in
  if starts_with "_" s then None
  else
    match scan_digits false 0 0 s with
    | None => None
    | Some (v, digits, rest) =>
        if (digits =? 0)%nat then None
        else if (int_max_str_digits <? digits)%nat then None
        else
          match skip_space rest with
          | EmptyString => Some (sign * v)
          | _ => None
          end
    end.

(** [int(s)] for a [str]: the integer, or [ValueError]. *)
Definition int (s : string) : exn + Z :=
  match long_from_string (TransformDecimalAndSpaceToASCII s) with
  | Some z => inr z
  | None => inl ValueError
  end.

(** *** [time.sleep(secs)] for an [int]

    The seconds are converted to a signed 64-bit count of nanoseconds;
    what does not fit is an [OverflowError], a negative length a
    [ValueError], and otherwise the process sleeps. *)
Definition PyTime_MIN : Z := - 2 ^ 63.
Definition PyTime_MAX : Z := 2 ^ 63 - 1.
Definition SEC_TO_NS : Z := 1000000000.

Definition time_sleep (secs : Z) : M unit :=
  if (secs <? Z.quot PyTime_MIN SEC_TO_NS)
     || (Z.quot PyTime_MAX SEC_TO_NS <? secs)
  then raise OverflowError
  else if secs * SEC_TO_NS <? 0 then raise ValueError
  else emit (Sleep secs).

End Py.

(** ** [binascii]: the Base64 codec behind [base64.b64encode]

    [base64.b64encode(s)] is [binascii.b2a_base64(s, newline=False)] and
    [base64.b64decode(s)] is [binascii.a2b_base64(s)]; both loops are
    written after CPython's [Modules/binascii.c], with its variable
    names. *)

Module Binascii.

Definition byte_val (b : byte) : Z := Z.of_N (Byte.to_N b).

(** Storing into an [unsigned char]: the low eight bits. *)
Definition to_byte (z : Z) : byte :=
  match Byte.of_N (Z.to_N (Z.land z 0xff)) with
  | Some b => b
  | None => x00
  end.

(** Arithmetic on [unsigned int] wraps at 32 bits. *)
Definition uint (z : Z) : Z := z mod 2 ^ 32.

Definition table_b2a_base64 : list byte :=
  list_byte_of_string
    "ABCDEFGHIJKLMNOPQRSTUVWXYZabcdefghijklmnopqrstuvwxyz0123456789+/".

Definition BASE64_PAD : byte := "="%byte.

(** [table_b2a_base64[i]] *)
Definition b2a (i : Z) : byte := nth (Z.to_nat i) table_b2a_base64 BASE64_PAD.

(** The inner loop of the encoder,
    [while (leftbits >= 6) { this_ch = (leftchar >> (leftbits-6)) & 0x3f;
                             leftbits -= 6; emit table[this_ch]; }],
    by recursion on [leftbits]. *)
Fixpoint drain (leftchar : Z) (leftbits : nat) : list byte :=
  match leftbits with
  | S (S (S (S (S (S n))))) =>
      b2a (Z.land (Z.shiftr leftchar (Z.of_nat n)) 0x3f) :: drain leftchar n
  | _ => []
  end.

(** [leftbits] when that loop is left. *)
Fixpoint drained (leftbits : nat) : nat :=
  match leftbits with
  | S (S (S (S (S (S n))))) => drained n
  | _ => leftbits
  end.

(** [leftchar = (leftchar << 8) | *bin_data]: the next input byte is
    shifted into the buffer. *)
Definition push (leftchar : Z) (b : byte) : Z :=
  uint (Z.lor (Z.shiftl leftchar 8) (byte_val b)).

(** The outer loop over the input bytes and the padding after it. *)
Fixpoint b2a_loop (leftchar : Z) (leftbits : nat) (bin_data : list byte)
  : list byte :=
  match bin_data with
  | b :: rest =>
      let leftchar := push leftchar b in
      let leftbits := (leftbits + 8)%nat in
      drain leftchar leftbits ++ b2a_loop leftchar (drained leftbits) rest
  | [] =>
      if (leftbits =? 2)%nat then
        [b2a (Z.shiftl (Z.land leftchar 3) 4); BASE64_PAD; BASE64_PAD]
      else if (leftbits =? 4)%nat then
        [b2a (Z.shiftl (Z.land leftchar 0xf) 2); BASE64_PAD]
      else []
  end.

(** [binascii.b2a_base64(data, newline=False)] *)
Definition b2a_base64 (data : list byte) : list byte := b2a_loop 0 0 data.

(** [table_a2b_base64[c]]: the value of a character of the alphabet,
    64 for every other byte. *)
Definition a2b (c : byte) : Z :=
  let v := byte_val c in
  if (65 <=? v) && (v <=? 90) then v - 65
  else if (97 <=? v) && (v <=? 122) then v - 71
  else if (48 <=? v) && (v <=? 57) then v + 4
  else if v =? 43 then 62
  else if v =? 47 then 63
  else 64.

(** The decoder's loop with [strict_mode] off.  [quad_pos] counts the
    characters of the current group of four, [leftchar] holds the bits
    not yet written, [pads] the [=] seen since the last data
    character, [bin_data] the bytes written so far.  A byte outside
    the alphabet is skipped; enough padding after two or three
    characters of a group ends the decoding ([goto done]); running
    out of input inside a group is an error. *)
Fixpoint a2b_loop (quad_pos : nat) (leftchar pads : Z) (bin_data : list byte)
    (ascii_data : list byte) : Py.exn + list byte :=
  match ascii_data with
  | [] =>
      if (quad_pos =? 0)%nat then inr bin_data else inl Py.binascii_Error
  | this_ch :: rest =>
      if Byte.eqb this_ch BASE64_PAD then
        if (2 <=? quad_pos)%nat then
          let pads := pads + 1 in
          if 4 <=? Z.of_nat quad_pos + pads then inr bin_data
          else a2b_loop quad_pos leftchar pads bin_data rest
        else a2b_loop quad_pos leftchar pads bin_data rest
      else
        let this_ch := a2b this_ch in
        if 64 <=? this_ch then a2b_loop quad_pos leftchar pads bin_data rest
        else
          match quad_pos with
          | 0%nat => a2b_loop 1 this_ch 0 bin_data rest
          | 1%nat =>
              a2b_loop 2 (Z.land this_ch 0x0f) 0
                (bin_data ++
                 [to_byte (Z.lor (Z.shiftl leftchar 2) (Z.shiftr this_ch 4))])
                rest
          | 2%nat =>
              a2b_loop 3 (Z.land this_ch 0x03) 0
                (bin_data ++
                 [to_byte (Z.lor (Z.shiftl leftchar 4) (Z.shiftr this_ch 2))])
                rest
          | _ =>
              a2b_loop 0 0 0
                (bin_data ++ [to_byte (Z.lor (Z.shiftl leftchar 6) this_ch)])
                rest
          end
  end.

(** [binascii.a2b_base64(data, strict_mode=False)] *)
Definition a2b_base64 (data : list byte) : Py.exn + list byte :=
  a2b_loop 0 0 0 [] data.

(** Input that the decoder, between two groups, reads to its end
    without writing a byte. *)
Definition skipped (tail : list byte) : Prop :=
  forall bin_data, a2b_loop 0 0 0 bin_data tail = inr bin_data.

End Binascii.

(** [base64.b64encode(s)] with the standard alphabet. *)
Definition b64encode (s : list byte) : list byte := Binascii.b2a_base64 s.

(** ** Base64 as RFC 4648 words it

    Section 4 of the RFC: the input is taken in groups of 24 bits, three
    bytes joined left to right, each read as four 6-bit numbers that
    index the alphabet.  A final group of 8 bits is filled with four
    zero bits and gives two characters and two [=]; a final group of 16
    bits is filled with two zero bits and gives three characters and one
    [=].  Lines are not wrapped. *)

Module Rfc4648.

(** Table 1 of the RFC, value to character. *)
Definition alphabet (v : Z) : byte :=
  Binascii.to_byte
    (if v <? 26 then 65 + v
     else if v <? 52 then 97 + (v - 26)
     else if v <? 62 then 48 + (v - 52)
     else if v =? 62 then 43
     else 47).

(** The [k]-th 6-bit number, counted from the right, of [n]. *)
Definition sextet (n : Z) (k : Z) : Z := (n / 64 ^ k) mod 64.

Fixpoint encode (data : list byte) : list byte :=
  match data with
  | [] => []
  | [b0] =>
      let n := Binascii.byte_val b0 * 16 in
      [alphabet (sextet n 1); alphabet (sextet n 0);
       Binascii.BASE64_PAD; Binascii.BASE64_PAD]
  | [b0; b1] =>
      let n := (Binascii.byte_val b0 * 256 + Binascii.byte_val b1) * 4 in
      [alphabet (sextet n 2); alphabet (sextet n 1); alphabet (sextet n 0);
       Binascii.BASE64_PAD]
  | b0 :: b1 :: b2 :: rest =>
      let n := Binascii.byte_val b0 * 65536 + Binascii.byte_val b1 * 256
               + Binascii.byte_val b2 in
      alphabet (sextet n 3) :: alphabet (sextet n 2)
      :: alphabet (sextet n 1) :: alphabet (sextet n 0) :: encode rest
  end.

End Rfc4648.

(** [base64.b64decode(s)] on a [str], [validate] left at [False]. *)
Definition b64decode (s : string) : Py.exn + list byte :=
  match Py.encode_ascii s with
  | inr bs => Binascii.a2b_base64 bs
  | inl e => inl e
  end.

(** ** [encode_base64.py] *)

Module EncodeBase64.
Import Py.
Local Open Scope py_scope.

(** The script, statement by statement; [argv] is [sys.argv], script
    name first. *)
Definition main (argv : list string) (fs : filesystem) : M unit :=
  (if len argv <? 2 then
     (print_end "" "" ;; sys_exit 0)
   else ret tt) ;;
  path <- item argv 1 ;;
  f <- open_rb fs path ;;
  data <- read f ;;
  text <- lift (decode_ascii (b64encode data)) ;;
  print text.

Definition encoder (argv : list string) (fs : filesystem) : process :=
  run (main argv fs).

(** The Base64 text of [data] as RFC 4648 defines it, the yardstick
    for what the script prints. *)
Definition encoding (data : list byte) : string :=
  string_of_list_byte (Rfc4648.encode data).

(** A small file system to run the script on. *)
Definition sample_fs : filesystem :=
  fun path =>
    if String.eqb path "data.bin" then Regular [x00; x01; x02]
    else if String.eqb path "empty.bin" then Regular []
    else if String.eqb path "foobar.txt" then
      Regular (list_byte_of_string "foobar")
    else if String.eqb path "secret.bin" then Denied
    else if String.eqb path "tmp" then Directory
    else Missing.

(** The same with one more file, which no run below reads. *)
Definition sample_fs_more : filesystem :=
  fun path =>
    if String.eqb path "other.bin" then Regular [xff] else sample_fs path.

End EncodeBase64.

(** ** [test_sleep.py] *)

Module TestSleep.
Import Py.
Local Open Scope py_scope.

(** The script; [argv] is [sys.argv], script name first. *)
Definition main (argv : list string) : M unit :=
  seconds <- (if 1 <? len argv then
                (arg <- item argv 1 ;; lift (int arg))
              else ret 5) ;;
  time_sleep seconds ;;
  print "done".

Definition sleeper (argv : list string) : process := run (main argv).

End TestSleep.

(** ** Notions the further properties are stated with *)

Module Text.
Import Py.

(** The characters of Base64 text: the 64 of the alphabet and the
    padding [=]. *)
Definition base64_char (c : ascii) : bool :=
  let n := N_of_ascii c in
  ((65 <=? n) && (n <=? 90) || (97 <=? n) && (n <=? 122)
   || (48 <=? n) && (n <=? 57) || (n =? 43) || (n =? 47) || (n =? 61))%N.

(** How often [c] is in [s]. *)
Fixpoint count (c : ascii) (s : string) : nat :=
  match s with
  | EmptyString => 0
  | String a rest => (if Ascii.eqb a c then 1 else 0) + count c rest
  end.



End Text.

(** * Facts about the codec *)

Module BinasciiFacts.
Import Binascii.

(** ** The model on known values *)

(** The test vectors of RFC 4648, section 10. *)
Example rfc4648_vectors :
  map (fun s => string_of_list_byte (b64encode (list_byte_of_string s)))
    [""; "f"; "fo"; "foo"; "foob"; "fooba"; "foobar"]
  = [""; "Zg=="; "Zm8="; "Zm9v"; "Zm9vYg=="; "Zm9vYmE="; "Zm9vYmFy"].
Proof. reflexivity. Qed.

Example rfc4648_encode_vectors :
  map (fun s => string_of_list_byte (Rfc4648.encode (list_byte_of_string s)))
    [""; "f"; "fo"; "foo"; "foob"; "fooba"; "foobar"]
  = [""; "Zg=="; "Zm8="; "Zm9v"; "Zm9vYg=="; "Zm9vYmE="; "Zm9vYmFy"].
Proof. reflexivity. Qed.

Example b64decode_vectors :
  map b64decode ["Zg=="; "Zm8="; "Zm9v"; "Zm9vYmFy"; "Zm9v YmFy"; "Zg"; "Z"]
  = [inr (list_byte_of_string "f"); inr (list_byte_of_string "fo");
     inr (list_byte_of_string "foo"); inr (list_byte_of_string "foobar");
     inr (list_byte_of_string "foobar");
     inl Py.binascii_Error; inl Py.binascii_Error].
Proof. reflexivity. Qed.

(** ** Bytes and bit operations as arithmetic *)

Lemma byte_val_range (b : byte) : 0 <= byte_val b < 256.
Proof.
  unfold byte_val. pose proof (Byte.to_N_bounded b). lia.
Qed.

Lemma to_byte_of_val (z : Z) (b : byte) :
  z mod 256 = byte_val b -> to_byte z = b.
Proof.
  intros E. unfold to_byte.
  change 0xff with (Z.ones 8). rewrite Z.land_ones by lia.
  change (2 ^ 8) with 256. rewrite E. unfold byte_val.
  rewrite N2Z.id, Byte.of_to_N. reflexivity.
Qed.

Lemma to_byte_val (b : byte) : to_byte (byte_val b) = b.
Proof.
  apply to_byte_of_val, Z.mod_small, byte_val_range.
Qed.

(** Or-ing below a left shift is adding: the operands share no bit. *)
Lemma lor_shiftl (a b k : Z) :
  0 <= k -> 0 <= b < 2 ^ k -> Z.lor (Z.shiftl a k) b = a * 2 ^ k + b.
Proof.
  intros Hk Hb.
  rewrite <- (Z.shiftl_mul_pow2 a k Hk), <- Z.add_lor_land.
  assert (Z.land (Z.shiftl a k) b = 0) as ->; [|lia].
  apply Z.bits_inj'. intros n Hn.
  rewrite Z.land_spec, Z.bits_0.
  destruct (Z.lt_ge_cases n k) as [Lt | Ge].
  - rewrite Z.shiftl_spec_low by assumption. reflexivity.
  - rewrite <- (Z.mod_small b (2 ^ k)) by assumption.
    rewrite Z.mod_pow2_bits_high by lia. apply andb_false_r.
Qed.

Lemma land_low (a k : Z) : 0 <= k -> Z.land a (2 ^ k - 1) = a mod 2 ^ k.
Proof.
  intros Hk. rewrite <- Z.land_ones by assumption.
  rewrite Z.ones_equiv, <- Z.sub_1_r. reflexivity.
Qed.

Lemma land_0x3f a : Z.land a 0x3f = a mod 64.
Proof. exact (land_low a 6 ltac:(lia)). Qed.

Lemma land_0x0f a : Z.land a 0x0f = a mod 16.
Proof. exact (land_low a 4 ltac:(lia)). Qed.

Lemma land_0x03 a : Z.land a 0x03 = a mod 4.
Proof. exact (land_low a 2 ltac:(lia)). Qed.

(** Closed powers are replaced by their values before [lia] runs. *)
Ltac pow_consts :=
  repeat match goal with
    | |- context [Z.pow ?a ?b] =>
        let v := eval vm_compute in (Z.pow a b) in
        change (Z.pow a b) with v
    end.

Ltac divmod := pow_consts; Z.div_mod_to_equations; lia.

(** A check run over the first [n] numbers holds of each of them. *)
Lemma forall_below (P : Z -> bool) (n : nat) :
  forallb P (map Z.of_nat (seq 0 n)) = true ->
  forall v, 0 <= v < Z.of_nat n -> P v = true.
Proof.
  intros H v Hv. rewrite forallb_forall in H. apply H.
  apply in_map_iff. exists (Z.to_nat v). split; [lia|].
  apply in_seq. lia.
Qed.

Lemma b2a_alphabet (v : Z) : 0 <= v < 64 -> b2a v = Rfc4648.alphabet v.
Proof.
  intros Hv. apply Byte.byte_dec_bl.
  apply (forall_below (fun v => Byte.eqb (b2a v) (Rfc4648.alphabet v)) 64);
    [vm_compute; reflexivity | exact Hv].
Qed.

Lemma sextet_range n k : 0 <= Rfc4648.sextet n k < 64.
Proof. unfold Rfc4648.sextet. apply Z.mod_pos_bound. lia. Qed.

Lemma b2a_sextet (i n k : Z) :
  i = Rfc4648.sextet n k -> b2a i = Rfc4648.alphabet (Rfc4648.sextet n k).
Proof. intros ->. apply b2a_alphabet, sextet_range. Qed.

(** ** The encoder's loop, one input byte at a time *)

Lemma push_arith lc b : push lc b = (lc * 256 + byte_val b) mod 2 ^ 32.
Proof.
  unfold push, uint.
  rewrite lor_shiftl; [reflexivity | lia | apply byte_val_range].
Qed.

Lemma b2a_loop_0 lc b rest :
  b2a_loop lc 0 (b :: rest) =
  b2a (Z.land (Z.shiftr (push lc b) 2) 0x3f) :: b2a_loop (push lc b) 2 rest.
Proof. reflexivity. Qed.

Lemma b2a_loop_2 lc b rest :
  b2a_loop lc 2 (b :: rest) =
  b2a (Z.land (Z.shiftr (push lc b) 4) 0x3f) :: b2a_loop (push lc b) 4 rest.
Proof. reflexivity. Qed.

Lemma b2a_loop_4 lc b rest :
  b2a_loop lc 4 (b :: rest) =
  b2a (Z.land (Z.shiftr (push lc b) 6) 0x3f)
  :: b2a (Z.land (Z.shiftr (push lc b) 0) 0x3f)
  :: b2a_loop (push lc b) 0 rest.
Proof. reflexivity. Qed.

Lemma list_ind3 {A} (P : list A -> Prop) :
  P [] -> (forall a, P [a]) -> (forall a b, P [a; b]) ->
  (forall a b c l, P l -> P (a :: b :: c :: l)) ->
  forall l, P l.
Proof.
  intros H0 H1 H2 H3 l.
  enough (P l /\ (forall a, P (a :: l)) /\ (forall a b, P (a :: b :: l)))
    by tauto.
  induction l as [|x l (Hl & Hl1 & Hl2)]; auto.
Qed.


Ltac index_arith :=
  apply b2a_sextet; unfold Rfc4648.sextet;
  rewrite ?land_0x3f, ?land_0x0f, ?land_0x03, ?Z.shiftr_div_pow2,
    ?Z.shiftl_mul_pow2, ?push_arith by lia;
  divmod.

(** The loop of [b2a_base64] computes the encoding of RFC 4648,
    whatever is left in the high bits of [leftchar]. *)
Lemma b2a_loop_rfc4648 (data : list byte) :
  forall leftchar, b2a_loop leftchar 0 data = Rfc4648.encode data.
Proof.
  induction data as [| b0 | b0 b1 | b0 b1 b2 rest IH] using list_ind3;
    intros lc.
  - reflexivity.
  - rewrite b2a_loop_0. cbn [b2a_loop Nat.eqb Rfc4648.encode].
    pose proof (byte_val_range b0).
    repeat first [index_arith | f_equal].
  - rewrite b2a_loop_0, b2a_loop_2. cbn [b2a_loop Nat.eqb Rfc4648.encode].
    pose proof (byte_val_range b0). pose proof (byte_val_range b1).
    repeat first [index_arith | f_equal].
  - rewrite b2a_loop_0, b2a_loop_2, b2a_loop_4, IH.
    cbn [Rfc4648.encode].
    pose proof (byte_val_range b0). pose proof (byte_val_range b1).
    pose proof (byte_val_range b2).
    repeat first [index_arith | f_equal].
Qed.

Lemma b2a_base64_rfc4648 (data : list byte) :
  b2a_base64 data = Rfc4648.encode data.
Proof. apply b2a_loop_rfc4648. Qed.

(** ** The decoder's loop, one character at a time *)

Lemma a2b_alphabet (v : Z) :
  0 <= v < 64 ->
  Byte.eqb (Rfc4648.alphabet v) BASE64_PAD = false
  /\ a2b (Rfc4648.alphabet v) = v.
Proof.
  intros Hv.
  pose (P := fun v => negb (Byte.eqb (Rfc4648.alphabet v) BASE64_PAD)
                      && (a2b (Rfc4648.alphabet v) =? v)).
  assert (P v = true) as HP
    by (apply (forall_below P 64); [vm_compute; reflexivity | exact Hv]).
  unfold P in HP. apply andb_true_iff in HP as [H1 H2].
  split; [apply negb_true_iff, H1 | apply Z.eqb_eq, H2].
Qed.

Lemma a2b_loop_data quad_pos leftchar pads bin_data v rest :
  0 <= v < 64 ->
  a2b_loop quad_pos leftchar pads bin_data (Rfc4648.alphabet v :: rest) =
  match quad_pos with
  | 0%nat => a2b_loop 1 v 0 bin_data rest
  | 1%nat =>
      a2b_loop 2 (Z.land v 0x0f) 0
        (bin_data ++ [to_byte (Z.lor (Z.shiftl leftchar 2) (Z.shiftr v 4))])
        rest
  | 2%nat =>
      a2b_loop 3 (Z.land v 0x03) 0
        (bin_data ++ [to_byte (Z.lor (Z.shiftl leftchar 4) (Z.shiftr v 2))])
        rest
  | _ =>
      a2b_loop 0 0 0
        (bin_data ++ [to_byte (Z.lor (Z.shiftl leftchar 6) v)]) rest
  end.
Proof.
  intros Hv. destruct (a2b_alphabet v Hv) as [Hpad Hval].
  cbn [a2b_loop]. rewrite Hpad, Hval.
  destruct (Z.leb_spec 64 v); [lia | reflexivity].
Qed.

Lemma a2b_loop_pad quad_pos leftchar pads bin_data rest :
  a2b_loop quad_pos leftchar pads bin_data (BASE64_PAD :: rest) =
  if (2 <=? quad_pos)%nat then
    if 4 <=? Z.of_nat quad_pos + (pads + 1) then inr bin_data
    else a2b_loop quad_pos leftchar (pads + 1) bin_data rest
  else a2b_loop quad_pos leftchar pads bin_data rest.
Proof. reflexivity. Qed.

Lemma skipped_nil : skipped [].
Proof. intros acc. reflexivity. Qed.

Lemma skipped_cons c tail :
  Byte.eqb c BASE64_PAD = false -> a2b c = 64 -> skipped tail ->
  skipped (c :: tail).
Proof.
  intros Hpad Hval Ht acc. cbn [a2b_loop]. rewrite Hpad, Hval.
  apply Ht.
Qed.

Ltac byte_arith :=
  apply to_byte_of_val;
  rewrite ?land_0x0f, ?land_0x03, ?Z.shiftr_div_pow2 by lia;
  rewrite lor_shiftl by (unfold Rfc4648.sextet; divmod);
  unfold Rfc4648.sextet; divmod.

Lemma a2b_loop_rfc4648 (data : list byte) :
  forall bin_data tail,
    skipped tail ->
    a2b_loop 0 0 0 bin_data (Rfc4648.encode data ++ tail)
    = inr (bin_data ++ data).
Proof.
  induction data as [| b0 | b0 b1 | b0 b1 b2 rest IH] using list_ind3;
    intros acc tail Ht.
  - cbn [Rfc4648.encode app]. rewrite app_nil_r. apply Ht.
  - cbn [Rfc4648.encode app].
    rewrite !a2b_loop_data by apply sextet_range.
    rewrite !a2b_loop_pad. cbn [Nat.leb Z.leb Z.of_nat Z.add Z.compare
      Pos.of_succ_nat Pos.succ Pos.add Pos.compare Pos.compare_cont].
    pose proof (byte_val_range b0).
    repeat first [byte_arith | f_equal].
  - cbn [Rfc4648.encode app].
    rewrite !a2b_loop_data by apply sextet_range.
    rewrite !a2b_loop_pad. cbn [Nat.leb Z.leb Z.of_nat Z.add Z.compare
      Pos.of_succ_nat Pos.succ Pos.add Pos.compare Pos.compare_cont].
    pose proof (byte_val_range b0). pose proof (byte_val_range b1).
    rewrite <- app_assoc. cbn [app].
    repeat first [byte_arith | f_equal].
  - cbn [Rfc4648.encode app].
    rewrite !a2b_loop_data by apply sextet_range.
    rewrite IH by assumption.
    pose proof (byte_val_range b0). pose proof (byte_val_range b1).
    pose proof (byte_val_range b2).
    rewrite <- !app_assoc. cbn [app].
    repeat first [byte_arith | f_equal].
Qed.

(** ** The encoding as text *)

Lemma alphabet_is_ascii (v : Z) :
  0 <= v < 64 -> Py.is_ascii_byte (Rfc4648.alphabet v) = true.
Proof.
  apply (forall_below (fun v => Py.is_ascii_byte (Rfc4648.alphabet v)) 64).
  vm_compute; reflexivity.
Qed.

Lemma encode_is_ascii (data : list byte) :
  forallb Py.is_ascii_byte (Rfc4648.encode data) = true.
Proof.
  induction data as [| b0 | b0 b1 | b0 b1 b2 rest IH] using list_ind3;
    cbn [Rfc4648.encode forallb];
    rewrite ?alphabet_is_ascii by apply sextet_range;
    try rewrite IH; reflexivity.
Qed.

Lemma decode_ascii_text (bs : list byte) :
  forallb Py.is_ascii_byte bs = true ->
  Py.decode_ascii bs = inr (string_of_list_byte bs).
Proof.
  induction bs as [|b bs IH]; cbn [forallb Py.decode_ascii]; [reflexivity|].
  intros [Hb Hbs]%andb_true_iff.
  rewrite Hb, (IH Hbs). reflexivity.
Qed.

Lemma encode_ascii_text (bs : list byte) :
  forallb Py.is_ascii_byte bs = true ->
  Py.encode_ascii (string_of_list_byte bs) = inr bs.
Proof.
  induction bs as [|b bs IH]; [reflexivity|].
  cbn [forallb]. intros [Hb Hbs]%andb_true_iff.
  change (string_of_list_byte (b :: bs))
    with (String (ascii_of_byte b) (string_of_list_byte bs)).
  cbn [Py.encode_ascii].
  rewrite ascii_of_byte_via_N, N_ascii_embedding
    by (pose proof (Byte.to_N_bounded b); lia).
  unfold Py.is_ascii_byte in Hb. rewrite Hb, (IH Hbs).
  rewrite <- ascii_of_byte_via_N, byte_of_ascii_of_byte. reflexivity.
Qed.

Lemma string_of_list_byte_app (xs ys : list byte) :
  string_of_list_byte (xs ++ ys)
  = (string_of_list_byte xs ++ string_of_list_byte ys)%string.
Proof.
  induction xs as [|x xs IH]; [reflexivity|].
  change (string_of_list_byte ((x :: xs) ++ ys))
    with (String (ascii_of_byte x) (string_of_list_byte (xs ++ ys))).
  rewrite IH. reflexivity.
Qed.

End BinasciiFacts.

(** * Facts about [encode_base64.py] *)

Module EncodeBase64Spec.
Import Py EncodeBase64 BinasciiFacts.

Lemma len_short {A} (x : A) : (len [x] <? 2) = true.
Proof. reflexivity. Qed.

Lemma len_long {A} (x y : A) (rest : list A) :
  (len (x :: y :: rest) <? 2) = false.
Proof. apply Z.ltb_ge. unfold len. cbn [List.length]. lia. Qed.

Lemma b64encode_text (data : list byte) :
  decode_ascii (b64encode data) = inr (encoding data).
Proof.
  unfold b64encode, encoding. rewrite b2a_base64_rfc4648.
  apply decode_ascii_text, encode_is_ascii.
Qed.

(** What a run with at least one argument does, by the kind of file
    the first argument names. *)
Lemma encoder_with_path prog path extra fs :
  encoder (prog :: path :: extra) fs =
  match fs path with
  | Regular data =>
      {| exit_code := 0;
         events := [Open path; Write (encoding data ++ LF)] |}
  | _ => {| exit_code := 1; events := [Open path] |}
  end.
Proof.
  unfold encoder, main. rewrite len_long.
  unfold run, bind, item, open_rb, bind, emit, read, lift, print, print_end,
    emit, ret. cbn [nth_error app].
  destruct (fs path) as [data| | |]; try reflexivity.
  cbn [contents]. rewrite b64encode_text. reflexivity.
Qed.

Lemma encoder_without_path prog fs :
  encoder [prog] fs = {| exit_code := 0; events := [Write ""] |}.
Proof. reflexivity. Qed.

Lemma append_nil_r (s : string) : (s ++ "")%string = s.
Proof. induction s as [|c s IH]; cbn; [|rewrite IH]; reflexivity. Qed.

Lemma encoder_stdout prog path extra fs data :
  fs path = Regular data ->
  stdout (encoder (prog :: path :: extra) fs) = (encoding data ++ LF)%string.
Proof.
  intros Hfile. rewrite encoder_with_path, Hfile.
  unfold stdout. cbn [events written]. apply append_nil_r.
Qed.

(** The decoder passes over the line feed that ends the output. *)
Lemma skipped_LF : Binascii.skipped [x0a].
Proof.
  apply BinasciiFacts.skipped_cons; [reflexivity | reflexivity |].
  apply BinasciiFacts.skipped_nil.
Qed.

Lemma b64decode_line (data : list byte) :
  b64decode (encoding data ++ LF) = inr data.
Proof.
  unfold encoding. change LF with (string_of_list_byte [x0a]).
  rewrite <- string_of_list_byte_app. unfold b64decode.
  rewrite encode_ascii_text
    by (rewrite forallb_app, encode_is_ascii; reflexivity).
  unfold Binascii.a2b_base64.
  rewrite a2b_loop_rfc4648 by exact skipped_LF. reflexivity.
Qed.

(** The bare encoding, without the line feed, decodes as well. *)
Lemma b64decode_encoding (data : list byte) :
  b64decode (encoding data) = inr data.
Proof.
  unfold encoding, b64decode.
  rewrite encode_ascii_text by apply encode_is_ascii.
  unfold Binascii.a2b_base64.
  rewrite <- (app_nil_r (Rfc4648.encode data)).
  rewrite a2b_loop_rfc4648 by exact skipped_nil. reflexivity.
Qed.

(** C1.  Round trip: for every byte sequence [B], what the encoder
    writes to standard output for a file holding [B] decodes, with
    [base64.b64decode], to exactly [B]. *)
Theorem encoder_roundtrip (prog path : string) (fs : filesystem)
    (B : list byte) :
  fs path = Regular B ->
  b64decode (stdout (encoder [prog; path] fs)) = inr B.
Proof.
  intros Hfile. rewrite (encoder_stdout _ _ _ _ _ Hfile).
  apply b64decode_line.
Qed.

Lemma encoder_roundtrip_witness :
  sample_fs "foobar.txt" = Regular (list_byte_of_string "foobar")
  /\ b64decode (stdout (encoder ["encode_base64.py"; "foobar.txt"]%string
                          sample_fs))
     = inr (list_byte_of_string "foobar").
Proof.
  split; [reflexivity|].
  apply (encoder_roundtrip "encode_base64.py" "foobar.txt" sample_fs).
  reflexivity.
Defined.

(** C2 as stated fails on the empty file: the script prints one line
    feed, which is neither the Base64 text of no bytes nor the empty
    string. *)
Lemma encoder_empty_file_prints_newline :
  sample_fs "empty.bin" = Regular []
  /\ stdout (encoder ["encode_base64.py"; "empty.bin"]%string sample_fs)
     <> encoding []
  /\ stdout (encoder ["encode_base64.py"; "empty.bin"]%string sample_fs)
     <> EmptyString.
Proof. repeat split; vm_compute; discriminate. Qed.

(** C2, amended.  For every readable file given as the single
    argument, the encoder writes to standard output the RFC 4648
    Base64 encoding of the file's bytes, as ASCII text, followed by
    one line feed, and exits 0; it opens that file and no other. *)
Theorem encoder_output (prog path : string) (fs : filesystem)
    (B : list byte) :
  fs path = Regular B ->
  stdout (encoder [prog; path] fs) = (encoding B ++ LF)%string
  /\ exit_code (encoder [prog; path] fs) = 0
  /\ opened (events (encoder [prog; path] fs)) = [path].
Proof.
  intros Hfile. split; [exact (encoder_stdout _ _ _ _ _ Hfile)|].
  rewrite encoder_with_path, Hfile. split; reflexivity.
Qed.

Lemma encoder_output_witness :
  sample_fs "empty.bin" = Regular []
  /\ stdout (encoder ["encode_base64.py"; "empty.bin"]%string sample_fs)
     = LF
  /\ exit_code (encoder ["encode_base64.py"; "empty.bin"]%string sample_fs)
     = 0
  /\ opened (events (encoder ["encode_base64.py"; "empty.bin"]%string
                       sample_fs))
     = ["empty.bin"%string].
Proof.
  split; [reflexivity|].
  apply (encoder_output "encode_base64.py" "empty.bin" sample_fs []).
  reflexivity.
Defined.

(** C3 as stated fails: the output for the bytes 00 01 02 is not the
    bare text [AAEC]. *)
Lemma bare_aaec_refuted :
  sample_fs "data.bin" = Regular [x00; x01; x02]
  /\ stdout (encoder ["encode_base64.py"; "data.bin"]%string sample_fs)
     <> "AAEC"%string.
Proof. split; [reflexivity | vm_compute; discriminate]. Qed.

(** C3, amended.  When the file holds exactly the bytes 00 01 02, the
    encoder's output is [AAEC] followed by one line feed. *)
Theorem encoder_aaec (prog path : string) (fs : filesystem) :
  fs path = Regular [x00; x01; x02] ->
  stdout (encoder [prog; path] fs) = ("AAEC" ++ LF)%string.
Proof.
  intros Hfile. rewrite (encoder_stdout _ _ _ _ _ Hfile). reflexivity.
Qed.

Lemma encoder_aaec_witness :
  sample_fs "data.bin" = Regular [x00; x01; x02]
  /\ stdout (encoder ["encode_base64.py"; "data.bin"]%string sample_fs)
     = ("AAEC" ++ LF)%string.
Proof.
  split; [reflexivity|].
  apply (encoder_aaec "encode_base64.py" "data.bin" sample_fs).
  reflexivity.
Defined.

(** C4.  With no argument the encoder writes nothing to standard
    output, exits 0, and does not try to open any file. *)
Theorem encoder_no_argument (prog : string) (fs : filesystem) :
  stdout (encoder [prog] fs) = EmptyString
  /\ exit_code (encoder [prog] fs) = 0
  /\ opened (events (encoder [prog] fs)) = [].
Proof. rewrite encoder_without_path. repeat split. Qed.

(** C5.  With one argument naming a path that cannot be opened for
    reading (missing, denied, a directory), the encoder exits with a
    non-zero status and writes nothing to standard output. *)
Theorem encoder_unreadable (prog path : string) (fs : filesystem) :
  (forall data, fs path <> Regular data) ->
  exit_code (encoder [prog; path] fs) <> 0
  /\ stdout (encoder [prog; path] fs) = EmptyString.
Proof.
  intros Hbad. rewrite encoder_with_path.
  destruct (fs path) as [data| | |] eqn:E;
    [destruct (Hbad data eq_refl) | | |]; split; (discriminate || reflexivity).
Qed.

Lemma encoder_unreadable_witness :
  (forall data, sample_fs "nowhere.bin" <> Regular data)
  /\ exit_code (encoder ["encode_base64.py"; "nowhere.bin"]%string sample_fs)
     <> 0
  /\ stdout (encoder ["encode_base64.py"; "nowhere.bin"]%string sample_fs)
     = EmptyString.
Proof.
  assert (forall data, sample_fs "nowhere.bin" <> Regular data) as Hbad
    by (intros data; vm_compute; discriminate).
  split; [exact Hbad|].
  apply (encoder_unreadable "encode_base64.py" "nowhere.bin" sample_fs Hbad).
Defined.

(** C6.  Determinism: two runs with the same arguments, on file
    systems where the file named by the first argument is the same,
    give the same standard output and the same exit status. *)
Theorem encoder_deterministic (argv : list string) (fs1 fs2 : filesystem) :
  (forall path, nth_error argv 1 = Some path -> fs1 path = fs2 path) ->
  stdout (encoder argv fs1) = stdout (encoder argv fs2)
  /\ exit_code (encoder argv fs1) = exit_code (encoder argv fs2).
Proof.
  intros Hsame.
  destruct argv as [|prog [|path extra]]; [split; reflexivity ..|].
  rewrite !encoder_with_path, (Hsame path eq_refl). split; reflexivity.
Qed.

Lemma encoder_deterministic_witness :
  (forall path,
      nth_error ["encode_base64.py"; "data.bin"]%string 1 = Some path ->
      sample_fs path = sample_fs_more path)
  /\ stdout (encoder ["encode_base64.py"; "data.bin"]%string sample_fs)
     = stdout (encoder ["encode_base64.py"; "data.bin"]%string sample_fs_more)
  /\ exit_code (encoder ["encode_base64.py"; "data.bin"]%string sample_fs)
     = exit_code
         (encoder ["encode_base64.py"; "data.bin"]%string sample_fs_more).
Proof.
  assert (forall path,
             nth_error ["encode_base64.py"; "data.bin"]%string 1 = Some path ->
             sample_fs path = sample_fs_more path) as Hsame
    by (intros path [= <-]; reflexivity).
  split; [exact Hsame|].
  apply (encoder_deterministic _ sample_fs sample_fs_more Hsame).
Defined.

End EncodeBase64Spec.

(** * Facts about [int] *)

Module IntFacts.
Import Py.

Lemma numeric_char_false c :
  numeric_char c = false ->
  Py_ISSPACE c = false /\ Ascii.eqb c "+" = false /\ Ascii.eqb c "-" = false
  /\ Ascii.eqb c "_" = false /\ digit_value c = None.
Proof.
  unfold numeric_char. rewrite !orb_false_iff.
  intros [[[[[? ?] ?] ?] ?] Hd]. repeat split; try assumption.
  destruct (digit_value c); [discriminate | reflexivity].
Qed.

Lemma occurs_skip_space c s :
  Py_ISSPACE c = false -> occurs c s -> occurs c (skip_space s).
Proof.
  intros Hc. induction s as [|a s IH]; cbn [skip_space occurs]; [tauto|].
  intros [-> | Hin].
  - rewrite Hc. left; reflexivity.
  - destruct (Py_ISSPACE a); [auto | right; exact Hin].
Qed.

Lemma occurs_advance c a s :
  Ascii.eqb c a = false -> starts_with a s = true -> occurs c s ->
  occurs c (advance s).
Proof.
  destruct s as [|b s]; cbn [starts_with advance occurs]; [discriminate|].
  intros Hc Hb [-> | Hin]; [congruence | exact Hin].
Qed.

Lemma occurs_scan_digits c s :
  Ascii.eqb c "_" = false -> digit_value c = None ->
  forall prev acc digits v n rest,
    scan_digits prev acc digits s = Some (v, n, rest) ->
    occurs c s -> occurs c rest.
Proof.
  intros Hu Hd. induction s as [|a s IH]; intros prev acc digits v n rest;
    cbn [scan_digits occurs]; [tauto|].
  destruct (Ascii.eqb_spec a "_") as [-> | Ha].
  - destruct prev; [discriminate|].
    intros Hscan [<- | Hin]; [discriminate | eauto].
  - destruct (digit_value a) as [d|] eqn:Hda.
    + intros Hscan [<- | Hin]; [congruence | eauto].
    + destruct prev; [discriminate|].
      intros [= <- <- <-] Hin. exact Hin.
Qed.

Lemma long_from_string_rejects c s :
  numeric_char c = false -> occurs c s -> long_from_string s = None.
Proof.
  intros (Hsp & Hplus & Hminus & Hu & Hd)%numeric_char_false Hin.
  unfold long_from_string.
  apply (occurs_skip_space _ _ Hsp) in Hin.
  set (s1 := skip_space s) in *.
  assert (forall sign s2, occurs c s2 ->
    (if starts_with "_" s2 then None
     else match scan_digits false 0 0 s2 with
          | None => None
          | Some (v, digits, rest) =>
              if (digits =? 0)%nat then None
              else if (int_max_str_digits <? digits)%nat then None
              else match skip_space rest with
                   | EmptyString => Some (sign * v)
                   | String _ _ => None
                   end
          end) = None) as Hbody.
  { intros sign s2 Hin2.
    destruct (starts_with "_" s2); [reflexivity|].
    destruct (scan_digits false 0 0 s2) as [[[v n] rest]|] eqn:Hscan;
      [|reflexivity].
    destruct (n =? 0)%nat; [reflexivity|].
    destruct (int_max_str_digits <? n)%nat; [reflexivity|].
    pose proof (occurs_scan_digits c s2 Hu Hd _ _ _ _ _ _ Hscan Hin2) as Hrest.
    apply (occurs_skip_space _ _ Hsp) in Hrest.
    destruct (skip_space rest); [destruct Hrest | reflexivity]. }
  destruct (starts_with "+" s1) eqn:Hp;
    [apply Hbody, (occurs_advance c "+"); assumption|].
  destruct (starts_with "-" s1) eqn:Hm;
    [apply Hbody, (occurs_advance c "-"); assumption|].
  apply Hbody, Hin.
Qed.

(** Bringing the text to ASCII keeps a character that is not numeric,
    or puts a [?] in its place. *)
Lemma occurs_transform c s :
  numeric_char c = false -> occurs c s ->
  exists c', numeric_char c' = false
             /\ occurs c' (TransformDecimalAndSpaceToASCII s).
Proof.
  intros Hc Hin. unfold TransformDecimalAndSpaceToASCII.
  destruct (is_ascii s); [exists c; split; assumption|].
  induction s as [|a s IH]; cbn [occurs transform_loop] in *; [tauto|].
  destruct (N_of_ascii a <? 127)%N.
  - destruct Hin as [-> | Hin].
    + exists c. split; [assumption | left; reflexivity].
    + destruct (IH Hin) as (c' & Hc' & Hin'). exists c'.
      split; [assumption | right; assumption].
  - destruct (Py_UNICODE_ISSPACE a) eqn:Hsp.
    + destruct Hin as [-> | Hin].
      * unfold numeric_char in Hc. rewrite Hsp, orb_true_r in Hc.
        discriminate.
      * destruct (IH Hin) as (c' & Hc' & Hin'). exists c'.
        split; [assumption | right; assumption].
    + exists "?"%char. split; [reflexivity | left; reflexivity].
Qed.

(** [int] raises on every text with a character that is not numeric. *)
Lemma int_rejects c s :
  numeric_char c = false -> occurs c s -> int s = inl ValueError.
Proof.
  intros Hc Hin. unfold int.
  destruct (occurs_transform c s Hc Hin) as (c' & Hc' & Hin').
  rewrite (long_from_string_rejects c' _ Hc' Hin'). reflexivity.
Qed.

End IntFacts.

(** * Facts about [test_sleep.py] *)

Module TestSleepSpec.
Import Py TestSleep.

Example int_values :
  map int [" 12 "; "-3"; "+4_0"; "007"; "abc"; "1__0"; "_1"; "1_"; "";
           "-"; "0x10"; "1.5"; "- 1"]
  = [inr 12; inr (-3); inr 40; inr 7; inl ValueError; inl ValueError;
     inl ValueError; inl ValueError; inl ValueError; inl ValueError;
     inl ValueError; inl ValueError; inl ValueError].
Proof. reflexivity. Qed.

Example sleeper_runs :
  map sleeper [["test_sleep.py"; "2"]; ["test_sleep.py"; "0"];
               ["test_sleep.py"; "99999999999"]]
  = [ {| exit_code := 0; events := [Sleep 2; Write ("done" ++ LF)] |};
      {| exit_code := 0; events := [Sleep 0; Write ("done" ++ LF)] |};
      {| exit_code := 1; events := [] |} ].
Proof. reflexivity. Qed.

Lemma len_some {A} (x y : A) (rest : list A) :
  (1 <? len (x :: y :: rest)) = true.
Proof. apply Z.ltb_lt. unfold len. cbn [List.length]. lia. Qed.

(** A run with at least one argument: the first is parsed, then the
    script sleeps and prints. *)
Lemma sleeper_with_argument prog arg extra :
  sleeper (prog :: arg :: extra) =
  match int arg with
  | inl _ => {| exit_code := 1; events := [] |}
  | inr seconds => run (bind (time_sleep seconds) (fun _ => print "done"))
  end.
Proof.
  unfold sleeper, main. rewrite len_some.
  unfold item, lift, run, bind, ret. cbn [nth_error].
  unfold int. destruct (long_from_string _); reflexivity.
Qed.

Lemma sleeper_without_argument prog :
  sleeper [prog]
  = {| exit_code := 0; events := [Sleep 5; Write ("done" ++ LF)] |}.
Proof. reflexivity. Qed.

(** [time.sleep] refuses every negative length. *)
Lemma time_sleep_negative (secs : Z) (log : list event) :
  secs < 0 ->
  time_sleep secs log = (inl ValueError, log)
  \/ time_sleep secs log = (inl OverflowError, log).
Proof.
  intros Hneg. unfold time_sleep.
  destruct (_ || _); [right; reflexivity|].
  assert ((secs * SEC_TO_NS <? 0) = true) as ->
    by (apply Z.ltb_lt; unfold SEC_TO_NS; lia).
  left; reflexivity.
Qed.

(** A length the clock can hold is slept in full. *)
Lemma time_sleep_ok (secs : Z) (log : list event) :
  0 <= secs <= 9223372036 ->
  time_sleep secs log = (inr tt, log ++ [Sleep secs]).
Proof.
  intros Hrange. unfold time_sleep.
  change (Z.quot PyTime_MIN SEC_TO_NS) with (-9223372036).
  change (Z.quot PyTime_MAX SEC_TO_NS) with 9223372036.
  assert ((secs <? -9223372036) || (9223372036 <? secs) = false) as ->
    by (apply orb_false_iff; split; apply Z.ltb_ge; lia).
  assert ((secs * SEC_TO_NS <? 0) = false) as ->
    by (apply Z.ltb_ge; unfold SEC_TO_NS; lia).
  reflexivity.
Qed.

(** X10.  An argument with a character that is not white space, a sign,
    a digit or an underscore (a letter, a decimal point) stops the
    script before it sleeps or prints: exit status 1, no event. *)
Lemma sleeper_rejects_text prog arg c :
  numeric_char c = false -> occurs c arg ->
  sleeper [prog; arg] = {| exit_code := 1; events := [] |}.
Proof.
  intros Hc Hin.
  rewrite sleeper_with_argument, (IntFacts.int_rejects c arg Hc Hin).
  reflexivity.
Qed.


(** C7.  With no argument the sleeper sleeps for exactly 5 seconds,
    then prints the line [done] (with its line feed) and exits 0. *)
Theorem sleeper_default (prog : string) :
  events (sleeper [prog]) = [Sleep 5; Write ("done" ++ LF)]
  /\ stdout (sleeper [prog]) = ("done" ++ LF)%string
  /\ exit_code (sleeper [prog]) = 0.
Proof. rewrite sleeper_without_argument. repeat split. Qed.

(** C8.  With one argument that [int] does not accept, the sleeper
    exits with a non-zero status and prints nothing; it does not
    sleep either. *)
Theorem sleeper_not_an_integer (prog arg : string) :
  (forall seconds, int arg <> inr seconds) ->
  exit_code (sleeper [prog; arg]) <> 0
  /\ stdout (sleeper [prog; arg]) = EmptyString
  /\ slept (events (sleeper [prog; arg])) = [].
Proof.
  intros Hbad. rewrite sleeper_with_argument.
  destruct (int arg) as [e | seconds];
    [|destruct (Hbad seconds eq_refl)].
  repeat split. discriminate.
Qed.

Lemma sleeper_not_an_integer_witness :
  (forall seconds, int "abc" <> inr seconds)
  /\ exit_code (sleeper ["test_sleep.py"; "abc"]) <> 0
  /\ stdout (sleeper ["test_sleep.py"; "abc"]) = EmptyString
  /\ slept (events (sleeper ["test_sleep.py"; "abc"])) = [].
Proof.
  assert (forall seconds, int "abc" <> inr seconds) as Hbad
    by (intros seconds; vm_compute; discriminate).
  split; [exact Hbad|].
  apply (sleeper_not_an_integer "test_sleep.py" "abc" Hbad).
Defined.

(** C9.  With an argument that parses as a negative integer, the
    sleeper exits with a non-zero status without printing [done] and
    without sleeping: [time.sleep] raises. *)
Theorem sleeper_negative (prog arg : string) (seconds : Z) :
  int arg = inr seconds ->
  seconds < 0 ->
  exit_code (sleeper [prog; arg]) <> 0
  /\ stdout (sleeper [prog; arg]) = EmptyString
  /\ slept (events (sleeper [prog; arg])) = [].
Proof.
  intros Hint Hneg. rewrite sleeper_with_argument, Hint.
  unfold run, bind.
  destruct (time_sleep_negative seconds [] Hneg) as [-> | ->];
    repeat split; discriminate.
Qed.

Lemma sleeper_negative_witness :
  int "-1" = inr (-1)
  /\ -1 < 0
  /\ exit_code (sleeper ["test_sleep.py"; "-1"]) <> 0
  /\ stdout (sleeper ["test_sleep.py"; "-1"]) = EmptyString
  /\ slept (events (sleeper ["test_sleep.py"; "-1"])) = [].
Proof.
  split; [reflexivity|]. split; [lia|].
  apply (sleeper_negative "test_sleep.py" "-1" (-1)); [reflexivity | lia].
Defined.

End TestSleepSpec.

(** * Both scripts *)

Module ArgumentsSpec.
Import Py.

(** C10.  Arguments after the first are ignored: with two or more
    arguments each script runs exactly as with the first one alone. *)
Theorem extra_arguments_ignored
    (prog arg next : string) (more : list string) (fs : filesystem) :
  EncodeBase64.encoder (prog :: arg :: next :: more) fs
  = EncodeBase64.encoder [prog; arg] fs
  /\ TestSleep.sleeper (prog :: arg :: next :: more)
     = TestSleep.sleeper [prog; arg].
Proof.
  split.
  - rewrite !EncodeBase64Spec.encoder_with_path. reflexivity.
  - rewrite !TestSleepSpec.sleeper_with_argument. reflexivity.
Qed.

End ArgumentsSpec.

(** * Facts about [int] on decimal numerals *)

Module NumeralFacts.
Import Py Text.













End NumeralFacts.

(** * Further facts about [encode_base64.py] *)

Module EncodeBase64More.
Import Py Text EncodeBase64 BinasciiFacts EncodeBase64Spec.


Lemma main_without_path argv fs :
  (List.length argv < 2)%nat ->
  main argv fs [] = (inl (SystemExit 0), [Write ""]).
Proof.
  destruct argv as [|prog [|path extra]]; cbn [List.length];
    [reflexivity | reflexivity | lia].
Qed.

Lemma encoder_short argv fs :
  (List.length argv < 2)%nat ->
  encoder argv fs = {| exit_code := 0; events := [Write ""] |}.
Proof.
  intros Hlen. unfold encoder, run. rewrite main_without_path by exact Hlen.
  reflexivity.
Qed.

(** X1.  The encoder's exit status is 0 or 1, and it is 0 exactly when
    there is no argument or the first argument names a readable file. *)
Theorem encoder_exit_status (argv : list string) (fs : filesystem) :
  (exit_code (encoder argv fs) = 0 \/ exit_code (encoder argv fs) = 1)
  /\ (exit_code (encoder argv fs) = 0 <->
      (List.length argv < 2)%nat
      \/ exists path data,
           nth_error argv 1 = Some path /\ fs path = Regular data).
Proof.
  destruct argv as [|prog [|path extra]].
  - rewrite encoder_short by (cbn; lia). cbn. intuition lia.
  - rewrite encoder_short by (cbn; lia). cbn. intuition lia.
  - rewrite encoder_with_path. cbn [nth_error List.length].
    destruct (fs path) as [data| | |] eqn:Hnode; cbn [exit_code].
    + split; [left; reflexivity|]. split; [|reflexivity].
      intros _. right. exists path, data. split; [reflexivity | exact Hnode].
    + split; [right; reflexivity|]. split; [discriminate|].
      intros [Hlen | (p & d & [= <-] & Hd)]; [lia | congruence].
    + split; [right; reflexivity|]. split; [discriminate|].
      intros [Hlen | (p & d & [= <-] & Hd)]; [lia | congruence].
    + split; [right; reflexivity|]. split; [discriminate|].
      intros [Hlen | (p & d & [= <-] & Hd)]; [lia | congruence].
Qed.



(** ** The shape of the output *)

Lemma alphabet_base64_char (v : Z) :
  0 <= v < 64 -> base64_char (ascii_of_byte (Rfc4648.alphabet v)) = true.
Proof.
  apply (forall_below
           (fun v => base64_char (ascii_of_byte (Rfc4648.alphabet v))) 64).
  vm_compute. reflexivity.
Qed.

Lemma encode_base64_chars (data : list byte) :
  forallb (fun b => base64_char (ascii_of_byte b)) (Rfc4648.encode data)
  = true.
Proof.
  induction data as [| b0 | b0 b1 | b0 b1 b2 rest IH] using list_ind3;
    cbn [Rfc4648.encode forallb];
    rewrite ?alphabet_base64_char by apply sextet_range;
    try rewrite IH; reflexivity.
Qed.

Lemma occurs_string_of_list_byte (P : ascii -> bool) (bs : list byte) :
  forallb (fun b => P (ascii_of_byte b)) bs = true ->
  forall c, occurs c (string_of_list_byte bs) -> P c = true.
Proof.
  induction bs as [|b bs IH]; cbn [forallb]; [intros _ c []|].
  intros [Hb Hbs]%andb_true_iff c.
  change (string_of_list_byte (b :: bs))
    with (String (ascii_of_byte b) (string_of_list_byte bs)).
  cbn [occurs]. intros [<- | Hin]; [exact Hb | exact (IH Hbs c Hin)].
Qed.

(** X3.  For a readable file the output is Base64 text followed by one
    line feed: every character before the line feed is a letter, a
    digit, [+], [/] or [=].  So [decode("ascii")] in the script never
    raises. *)
Theorem encoder_output_alphabet (prog path : string) (fs : filesystem)
    (B : list byte) :
  fs path = Regular B ->
  exists text,
    stdout (encoder [prog; path] fs) = (text ++ LF)%string
    /\ forall c, occurs c text -> base64_char c = true.
Proof.
  intros Hfile. exists (encoding B). split.
  - exact (encoder_stdout _ _ _ _ _ Hfile).
  - apply (occurs_string_of_list_byte base64_char), encode_base64_chars.
Qed.

Lemma encoder_output_alphabet_witness :
  sample_fs "foobar.txt" = Regular (list_byte_of_string "foobar")
  /\ exists text,
       stdout (encoder ["encode_base64.py"; "foobar.txt"] sample_fs)
       = (text ++ LF)%string
       /\ forall c, occurs c text -> base64_char c = true.
Proof.
  split; [reflexivity|].
  apply (encoder_output_alphabet "encode_base64.py" "foobar.txt" sample_fs
           (list_byte_of_string "foobar")).
  reflexivity.
Defined.

Lemma length_append (s t : string) :
  String.length (s ++ t) = (String.length s + String.length t)%nat.
Proof. induction s as [|c s IH]; cbn; [|rewrite IH]; reflexivity. Qed.

Lemma length_string_of_list_byte (bs : list byte) :
  String.length (string_of_list_byte bs) = List.length bs.
Proof.
  induction bs as [|b bs IH]; [reflexivity|].
  change (string_of_list_byte (b :: bs))
    with (String (ascii_of_byte b) (string_of_list_byte bs)).
  cbn [String.length List.length]. rewrite IH. reflexivity.
Qed.

Lemma encode_length (data : list byte) :
  len (Rfc4648.encode data) = 4 * ((len data + 2) / 3).
Proof.
  unfold len.
  induction data as [| b0 | b0 b1 | b0 b1 b2 rest IH] using list_ind3;
    [reflexivity | reflexivity | reflexivity |].
  cbn [Rfc4648.encode List.length]. rewrite !Nat2Z.inj_succ, IH.
  Z.div_mod_to_equations. lia.
Qed.

(** X4.  For a readable file of [n] bytes the output has
    [4 * ceil(n / 3) + 1] characters: four for every three bytes begun,
    and the line feed. *)
Theorem encoder_output_length (prog path : string) (fs : filesystem)
    (B : list byte) :
  fs path = Regular B ->
  Z.of_nat (String.length (stdout (encoder [prog; path] fs)))
  = 4 * ((len B + 2) / 3) + 1.
Proof.
  intros Hfile. rewrite (encoder_stdout _ _ _ _ _ Hfile).
  unfold encoding. rewrite length_append, length_string_of_list_byte.
  rewrite Nat2Z.inj_add. fold (len (Rfc4648.encode B)).
  rewrite encode_length. reflexivity.
Qed.

Lemma encoder_output_length_witness :
  sample_fs "foobar.txt" = Regular (list_byte_of_string "foobar")
  /\ Z.of_nat (String.length
                 (stdout (encoder ["encode_base64.py"; "foobar.txt"]
                                  sample_fs)))
     = 4 * ((len (list_byte_of_string "foobar") + 2) / 3) + 1.
Proof.
  split; [reflexivity|].
  apply (encoder_output_length "encode_base64.py" "foobar.txt" sample_fs).
  reflexivity.
Defined.

(** X6.  Files with the same output have the same contents: the output
    of the encoder determines the bytes of the file. *)
Theorem encoder_output_injective
    (prog1 path1 prog2 path2 : string) (fs1 fs2 : filesystem)
    (B1 B2 : list byte) :
  fs1 path1 = Regular B1 ->
  fs2 path2 = Regular B2 ->
  stdout (encoder [prog1; path1] fs1) = stdout (encoder [prog2; path2] fs2) ->
  B1 = B2.
Proof.
  intros H1 H2 Hout.
  rewrite (encoder_stdout _ _ _ _ _ H1), (encoder_stdout _ _ _ _ _ H2) in Hout.
  apply (f_equal b64decode) in Hout.
  rewrite !b64decode_line in Hout. injection Hout as ->. reflexivity.
Qed.

Lemma encoder_output_injective_witness :
  sample_fs "data.bin" = Regular [x00; x01; x02]
  /\ sample_fs_more "data.bin" = Regular [x00; x01; x02]
  /\ stdout (encoder ["encode_base64.py"; "data.bin"] sample_fs)
     = stdout (encoder ["a.py"; "data.bin"] sample_fs_more)
  /\ [x00; x01; x02] = [x00; x01; x02].
Proof.
  split; [reflexivity|]. split; [reflexivity|]. split; [reflexivity|].
  apply (encoder_output_injective "encode_base64.py" "data.bin" "a.py"
           "data.bin" sample_fs sample_fs_more); reflexivity.
Defined.

(** ** Padding *)

Lemma count_append c s t :
  count c (s ++ t) = (count c s + count c t)%nat.
Proof.
  induction s as [|a s IH]; cbn [append count]; [reflexivity|].
  rewrite IH. lia.
Qed.

Lemma alphabet_not_pad (v : Z) :
  0 <= v < 64 -> Ascii.eqb (ascii_of_byte (Rfc4648.alphabet v)) "=" = false.
Proof.
  intros Hv. apply negb_true_iff.
  apply (forall_below
           (fun v => negb (Ascii.eqb (ascii_of_byte (Rfc4648.alphabet v)) "="))
           64); [vm_compute; reflexivity | exact Hv].
Qed.

Lemma count_pad_encode (data : list byte) :
  Z.of_nat (count "=" (encoding data)) = (3 - len data mod 3) mod 3.
Proof.
  unfold encoding, len.
  induction data as [| b0 | b0 b1 | b0 b1 b2 rest IH] using list_ind3.
  - reflexivity.
  - cbn [Rfc4648.encode].
    repeat (match goal with
            | |- context [string_of_list_byte (?b :: ?bs)] =>
                change (string_of_list_byte (b :: bs))
                  with (String (ascii_of_byte b) (string_of_list_byte bs))
            end; cbn [count]).
    rewrite !alphabet_not_pad by apply sextet_range. reflexivity.
  - cbn [Rfc4648.encode].
    repeat (match goal with
            | |- context [string_of_list_byte (?b :: ?bs)] =>
                change (string_of_list_byte (b :: bs))
                  with (String (ascii_of_byte b) (string_of_list_byte bs))
            end; cbn [count]).
    rewrite !alphabet_not_pad by apply sextet_range. reflexivity.
  - cbn [Rfc4648.encode].
    repeat (match goal with
            | |- context [string_of_list_byte (?b :: ?bs)] =>
                change (string_of_list_byte (b :: bs))
                  with (String (ascii_of_byte b) (string_of_list_byte bs))
            end; cbn [count]).
    rewrite !alphabet_not_pad by apply sextet_range.
    cbn [Nat.add List.length]. rewrite IH, !Nat2Z.inj_succ.
    Z.div_mod_to_equations. lia.
Qed.

(** X5.  The output holds as many [=] as the file needs padding: none
    when its length is a multiple of 3, two when one byte is left over,
    one when two are. *)
Theorem encoder_output_padding (prog path : string) (fs : filesystem)
    (B : list byte) :
  fs path = Regular B ->
  Z.of_nat (count "=" (stdout (encoder [prog; path] fs)))
  = (3 - len B mod 3) mod 3.
Proof.
  intros Hfile. rewrite (encoder_stdout _ _ _ _ _ Hfile).
  rewrite count_append. cbn [count LF]. rewrite Nat.add_0_r.
  apply count_pad_encode.
Qed.

Lemma encoder_output_padding_witness :
  sample_fs "foobar.txt" = Regular (list_byte_of_string "foobar")
  /\ Z.of_nat (count "="
                 (stdout (encoder ["encode_base64.py"; "foobar.txt"]
                                  sample_fs)))
     = (3 - len (list_byte_of_string "foobar") mod 3) mod 3.
Proof.
  split; [reflexivity|].
  apply (encoder_output_padding "encode_base64.py" "foobar.txt" sample_fs).
  reflexivity.
Defined.



End EncodeBase64More.

(** * Further facts about [test_sleep.py] *)

Module TestSleepMore.
Import Py Text TestSleep TestSleepSpec.

(** [time.sleep] refuses a length the clock cannot hold. *)
Lemma time_sleep_overflow (secs : Z) (log : list event) :
  9223372036 < secs -> time_sleep secs log = (inl OverflowError, log).
Proof.
  intros Hbig. unfold time_sleep.
  change (Z.quot PyTime_MAX SEC_TO_NS) with 9223372036.
  assert ((9223372036 <? secs) = true) as -> by (apply Z.ltb_lt; lia).
  rewrite orb_true_r. reflexivity.
Qed.




(** X11.  When the argument parses to more seconds than the clock holds,
    [time.sleep] raises: non-zero exit status, nothing printed, no
    sleep. *)
Theorem sleeper_too_long (prog arg : string) (seconds : Z) :
  int arg = inr seconds ->
  9223372036 < seconds ->
  exit_code (sleeper [prog; arg]) <> 0
  /\ stdout (sleeper [prog; arg]) = EmptyString
  /\ slept (events (sleeper [prog; arg])) = [].
Proof.
  intros Hint Hbig. rewrite sleeper_with_argument, Hint.
  unfold run, bind. rewrite (time_sleep_overflow seconds [] Hbig).
  repeat split. discriminate.
Qed.

Lemma sleeper_too_long_witness :
  int "9223372037" = inr 9223372037
  /\ 9223372036 < 9223372037
  /\ exit_code (sleeper ["test_sleep.py"; "9223372037"]) <> 0
  /\ stdout (sleeper ["test_sleep.py"; "9223372037"]) = EmptyString
  /\ slept (events (sleeper ["test_sleep.py"; "9223372037"])) = [].
Proof.
  split; [reflexivity|]. split; [lia|].
  apply (sleeper_too_long "test_sleep.py" "9223372037" 9223372037);
    [reflexivity | lia].
Defined.

(** X12.  Every run of the sleeper ends in one of two ways: exit status
    1 with nothing slept and nothing printed, or exit status 0 after
    one sleep of a non-negative length followed by the one line
    [done].  So [done] is never printed before, or without, the
    sleep. *)
Theorem sleeper_outcomes (argv : list string) :
  sleeper argv = {| exit_code := 1; events := [] |}
  \/ exists seconds,
       0 <= seconds
       /\ sleeper argv
          = {| exit_code := 0;
               events := [Sleep seconds; Write ("done" ++ LF)] |}.
Proof.
  destruct argv as [|prog [|arg extra]].
  - right. exists 5. split; [lia | reflexivity].
  - right. exists 5. split; [lia | reflexivity].
  - rewrite sleeper_with_argument.
    destruct (int arg) as [e | seconds]; [left; reflexivity|].
    unfold run, bind.
    destruct (Z.lt_ge_cases seconds 0) as [Hneg | Hpos].
    + left.
      destruct (time_sleep_negative seconds [] Hneg) as [-> | ->];
        reflexivity.
    + destruct (Z.le_gt_cases seconds 9223372036) as [Hok | Hbig].
      * right. exists seconds. split; [lia|].
        rewrite (time_sleep_ok seconds []) by lia. reflexivity.
      * left. rewrite (time_sleep_overflow seconds [] Hbig). reflexivity.
Qed.




Lemma sleeper_rejects_text_witness :
  numeric_char "." = false
  /\ occurs "." "1.5"
  /\ sleeper ["test_sleep.py"; "1.5"] = {| exit_code := 1; events := [] |}.
Proof.
  assert (occurs "." "1.5") as Hin by (right; left; reflexivity).
  split; [reflexivity|]. split; [exact Hin|].
  apply (sleeper_rejects_text "test_sleep.py" "1.5" "." eq_refl Hin).
Defined.



End TestSleepMore.
